(** * OCJS helpers of opencascade.js: exception bridge and shape exporters

    A shallow embedding of the C++ helpers under [src/builds/shared]:

    - [ocjs_exception.cpp]   : [OCJS::getStandard_FailureData]
    - [ocjs_io_brep.cpp]     : [OCJS_IO::BRep_WriteToString]
    - [ocjs_io_dumpjson.cpp] : [OCJS_IO::Shape_DumpJsonToString]
    - [ocjs_io_iges.cpp]     : [OCJS_IO::IGES_WriteToString]
    - [ocjs_io_step.cpp]     : [OCJS_IO::STEP_WriteToString]

    The helpers are thin drivers of the OpenCASCADE kernel, whose code is not
    part of the repository.  The kernel is therefore an interface ([OCCT]
    below): every kernel entry point the helpers call is an operation that
    reads and updates the kernel's process-wide static state and either
    returns or throws a [Standard_Failure].  The helpers themselves are
    programs over these operations; running a program records every call it
    makes, with its arguments and its outcome. *)

From Stdlib Require Import String List ZArith Lia.
Import ListNotations.

Local Open Scope string_scope.

(** ** C++ values *)

(** How a C++ call ends: it returns a value or it throws. *)
Inductive Outcome (E A : Type) : Type :=
| Returns (a : A)
| Throws (e : E).

Arguments Returns {E A} a.
Arguments Throws {E A} e.

(** [std::ostringstream]: an in-memory sink, represented by the characters
    accumulated so far.  [str] is the member function [ss.str()]. *)
Record ostringstream : Type := { str : string }.

(** [std::ostringstream ss;] : the default constructor gives an empty sink. *)
Definition ostringstream_empty : ostringstream := {| str := "" |}.

(** [Standard_Boolean] constants of the kernel. *)
Definition Standard_Boolean : Type := bool.
Definition Standard_False : Standard_Boolean := false.
Definition Standard_True : Standard_Boolean := true.

(** [Standard_Integer] is the C++ [int] and [intptr_t] the signed integer of
    pointer width.  The helpers compute nothing with either: they pass the
    value along as they received it. *)
Definition Standard_Integer : Type := Z.
Definition intptr_t : Type := Z.

(** [STEPControl_StepModelType], as the comment above [STEP_WriteToString]
    lists it: AsIs (0), ManifoldSolidBrep (1), FacetedBrep (2),
    ShellBasedSurfaceModel (3), GeometricCurveSet (4). *)
Inductive STEPControl_StepModelType : Type :=
| STEPControl_AsIs
| STEPControl_ManifoldSolidBrep
| STEPControl_FacetedBrep
| STEPControl_ShellBasedSurfaceModel
| STEPControl_GeometricCurveSet.

(** ** The kernel interface *)

(** The part of OpenCASCADE the helpers use.  [Statics] is the process-wide
    mutable state of the kernel (controllers, [Interface_Static] parameters);
    writer objects are values that every member function takes and gives
    back; a sink passed by reference is given back as well; the shape is
    passed by [const] reference and is never given back. *)
Class OCCT : Type := {
  Statics : Type;
  TopoDS_Shape : Type;
  Standard_Failure : Type;
  STEPControl_Writer : Type;
  IGESControl_Writer : Type;

  (* Standard_Failure: the two observations the host reads *)
  GetMessageString : Standard_Failure -> string;
  DynamicType : Standard_Failure -> string;

  (* IFSelect_ReturnStatus: an enumeration with the enumerator IFSelect_RetDone *)
  IFSelect_ReturnStatus : Type;
  IFSelect_RetDone : IFSelect_ReturnStatus;
  IFSelect_ReturnStatus_eq_dec :
    forall a b : IFSelect_ReturnStatus, {a = b} + {a <> b};

  (* STEPControl_Writer *)
  kernel_STEPControl_Writer_new :
    Statics -> Outcome Standard_Failure STEPControl_Writer * Statics;
  kernel_STEPControl_Writer_Transfer :
    STEPControl_Writer -> TopoDS_Shape -> STEPControl_StepModelType ->
    Statics -> Outcome Standard_Failure (IFSelect_ReturnStatus * STEPControl_Writer) * Statics;
  kernel_STEPControl_Writer_WriteStream :
    STEPControl_Writer -> ostringstream ->
    Statics ->
    Outcome Standard_Failure (IFSelect_ReturnStatus * STEPControl_Writer * ostringstream) * Statics;

  (* IGESControl_Controller, IGESControl_Writer *)
  kernel_IGESControl_Controller_Init :
    Statics -> Outcome Standard_Failure Standard_Boolean * Statics;
  kernel_IGESControl_Writer_new :
    Statics -> Outcome Standard_Failure IGESControl_Writer * Statics;
  kernel_IGESControl_Writer_AddShape :
    IGESControl_Writer -> TopoDS_Shape ->
    Statics -> Outcome Standard_Failure (Standard_Boolean * IGESControl_Writer) * Statics;
  kernel_IGESControl_Writer_ComputeModel :
    IGESControl_Writer ->
    Statics -> Outcome Standard_Failure IGESControl_Writer * Statics;
  kernel_IGESControl_Writer_Write :
    IGESControl_Writer -> ostringstream -> Standard_Boolean ->
    Statics ->
    Outcome Standard_Failure (Standard_Boolean * IGESControl_Writer * ostringstream) * Statics;

  (* BRepTools, TopoDS_Shape *)
  kernel_BRepTools_Write :
    TopoDS_Shape -> ostringstream ->
    Statics -> Outcome Standard_Failure ostringstream * Statics;
  kernel_TopoDS_Shape_DumpJson :
    TopoDS_Shape -> ostringstream -> Standard_Integer ->
    Statics -> Outcome Standard_Failure ostringstream * Statics
}.

Section OCJS.

Context {K : OCCT}.

(** [status != IFSelect_RetDone] *)
Definition status_neq (a b : IFSelect_ReturnStatus) : bool :=
  if IFSelect_ReturnStatus_eq_dec a b then false else true.

(** ** Programs over the kernel *)

(** The calls a helper makes: one constructor per constructor or function
    that the sources invoke, with the arguments the call receives. *)
Inductive Call : Type :=
| std_ostringstream_new
| STEPControl_Writer_new
| STEPControl_Writer_Transfer
    (writer : STEPControl_Writer) (shape : TopoDS_Shape) (mode : STEPControl_StepModelType)
| STEPControl_Writer_WriteStream (writer : STEPControl_Writer) (ss : ostringstream)
| IGESControl_Controller_Init
| IGESControl_Writer_new
| IGESControl_Writer_AddShape (writer : IGESControl_Writer) (shape : TopoDS_Shape)
| IGESControl_Writer_ComputeModel (writer : IGESControl_Writer)
| IGESControl_Writer_Write
    (writer : IGESControl_Writer) (ss : ostringstream) (fnes : Standard_Boolean)
| BRepTools_Write (shape : TopoDS_Shape) (ss : ostringstream)
| TopoDS_Shape_DumpJson (shape : TopoDS_Shape) (ss : ostringstream) (depth : Standard_Integer).

(** What a call gives back: its C++ result, then the objects it received by
    non-const reference (the receiver of a member function, the sink). *)
Definition ret_type (c : Call) : Type :=
  match c with
  | std_ostringstream_new => ostringstream
  | STEPControl_Writer_new => STEPControl_Writer
  | STEPControl_Writer_Transfer _ _ _ => IFSelect_ReturnStatus * STEPControl_Writer
  | STEPControl_Writer_WriteStream _ _ =>
      IFSelect_ReturnStatus * STEPControl_Writer * ostringstream
  | IGESControl_Controller_Init => Standard_Boolean
  | IGESControl_Writer_new => IGESControl_Writer
  | IGESControl_Writer_AddShape _ _ => Standard_Boolean * IGESControl_Writer
  | IGESControl_Writer_ComputeModel _ => IGESControl_Writer
  | IGESControl_Writer_Write _ _ _ => Standard_Boolean * IGESControl_Writer * ostringstream
  | BRepTools_Write _ _ => ostringstream
  | TopoDS_Shape_DumpJson _ _ _ => ostringstream
  end.

(** The effect of one call on the static state.  The sink constructor belongs
    to the C++ library, not to the kernel: it yields the empty sink and
    leaves the kernel alone. *)
Definition perform (c : Call) :
  Statics -> Outcome Standard_Failure (ret_type c) * Statics :=
  match c return Statics -> Outcome Standard_Failure (ret_type c) * Statics with
  | std_ostringstream_new => fun g => (Returns ostringstream_empty, g)
  | STEPControl_Writer_new => kernel_STEPControl_Writer_new
  | STEPControl_Writer_Transfer writer shape mode =>
      kernel_STEPControl_Writer_Transfer writer shape mode
  | STEPControl_Writer_WriteStream writer ss =>
      kernel_STEPControl_Writer_WriteStream writer ss
  | IGESControl_Controller_Init => kernel_IGESControl_Controller_Init
  | IGESControl_Writer_new => kernel_IGESControl_Writer_new
  | IGESControl_Writer_AddShape writer shape =>
      kernel_IGESControl_Writer_AddShape writer shape
  | IGESControl_Writer_ComputeModel writer =>
      kernel_IGESControl_Writer_ComputeModel writer
  | IGESControl_Writer_Write writer ss fnes =>
      kernel_IGESControl_Writer_Write writer ss fnes
  | BRepTools_Write shape ss => kernel_BRepTools_Write shape ss
  | TopoDS_Shape_DumpJson shape ss depth => kernel_TopoDS_Shape_DumpJson shape ss depth
  end.

(** A helper body: it returns, or makes a call and goes on with what the
    call gave back. *)
Inductive Prog (A : Type) : Type :=
| Ret (a : A)
| Do (c : Call) (k : ret_type c -> Prog A).

Arguments Ret {A} a.
Arguments Do {A} c k.

Definition call (c : Call) : Prog (ret_type c) := Do c Ret.

Fixpoint bind {A B : Type} (p : Prog A) (f : A -> Prog B) : Prog B :=
  match p with
  | Ret a => f a
  | Do c k => Do c (fun x => bind (k x) f)
  end.

(** One recorded call with the way it ended. *)
Record Event : Type := {
  ev_call : Call;
  ev_outcome : Outcome Standard_Failure (ret_type ev_call)
}.

(** The result of running a helper: how it ended, the static state it left,
    and the calls it made, in order. *)
Record Result (A : Type) : Type := {
  outcome : Outcome Standard_Failure A;
  final : Statics;
  events : list Event
}.

Arguments outcome {A} r.
Arguments final {A} r.
Arguments events {A} r.

(** Running a helper from a static state.  No helper has a [try] block: a
    failure thrown by a call unwinds the helper and reaches the caller.  The
    locals of a helper (its writer, its sink) are values of the run and end
    with it; their destructors give nothing back and are not recorded. *)
Fixpoint run {A : Type} (p : Prog A) (g : Statics) : Result A :=
  match p with
  | Ret a => {| outcome := Returns a; final := g; events := [] |}
  | Do c k =>
      match perform c g with
      | (Returns x, g') =>
          let r := run (k x) g' in
          {| outcome := outcome r;
             final := final r;
             events := {| ev_call := c; ev_outcome := Returns x |} :: events r |}
      | (Throws e, g') =>
          {| outcome := Throws e;
             final := g';
             events := [ {| ev_call := c; ev_outcome := Throws e |} ] |}
      end
  end.

(** The calls of a run, without their outcomes. *)
Definition calls {A : Type} (r : Result A) : list Call := map ev_call (events r).

End OCJS.

Arguments Ret {K A} a.
Arguments Do {K A} c k.
Arguments outcome {K A} r.
Arguments final {K A} r.
Arguments events {K A} r.

Declare Scope prog_scope.
Delimit Scope prog_scope with prog.
Notation "x <- c ;; k" := (bind c (fun x => k))
  (at level 61, c at next level, right associativity) : prog_scope.
Notation "' pat <- c ;; k" := (bind c (fun x => match x with pat => k end))
  (at level 61, pat pattern, c at next level, right associativity) : prog_scope.

Section Helpers.

Context {K : OCCT}.
Local Open Scope prog_scope.

(** ** ocjs_io_step.cpp *)

Definition STEP_WriteToString
    (shape : TopoDS_Shape) (mode : STEPControl_StepModelType) : Prog string :=
  writer <- call STEPControl_Writer_new ;;
  '(status, writer) <- call (STEPControl_Writer_Transfer writer shape mode) ;;
  if status_neq status IFSelect_RetDone then
    Ret ""                                   (* Transfer failed *)
  else
    ss <- call std_ostringstream_new ;;
    '(status, writer, ss) <- call (STEPControl_Writer_WriteStream writer ss) ;;
    if status_neq status IFSelect_RetDone then
      Ret ""                                 (* Write failed *)
    else
      Ret (str ss).

(** The call [STEP_WriteToString(shape)]: the omitted argument takes its
    default, [mode = STEPControl_AsIs]. *)
Definition STEP_WriteToString_default (shape : TopoDS_Shape) : Prog string :=
  STEP_WriteToString shape STEPControl_AsIs.

(** ** ocjs_io_iges.cpp *)

Definition IGES_WriteToString (shape : TopoDS_Shape) : Prog string :=
  _ <- call IGESControl_Controller_Init ;;
  writer <- call IGESControl_Writer_new ;;
  '(_, writer) <- call (IGESControl_Writer_AddShape writer shape) ;;
  writer <- call (IGESControl_Writer_ComputeModel writer) ;;
  ss <- call std_ostringstream_new ;;
  '(_, writer, ss) <- call (IGESControl_Writer_Write writer ss Standard_False) ;;
  Ret (str ss).

(** ** ocjs_io_brep.cpp *)

Definition BRep_WriteToString (shape : TopoDS_Shape) : Prog string :=
  ss <- call std_ostringstream_new ;;
  ss <- call (BRepTools_Write shape ss) ;;
  Ret (str ss).

(** ** ocjs_io_dumpjson.cpp *)

Definition Shape_DumpJsonToString
    (shape : TopoDS_Shape) (depth : Standard_Integer) : Prog string :=
  ss <- call std_ostringstream_new ;;
  ss <- call (TopoDS_Shape_DumpJson shape ss depth) ;;
  Ret (str ss).

(** The call [Shape_DumpJsonToString(shape)]: the omitted argument takes its
    default, [depth = -1]. *)
Definition Shape_DumpJsonToString_default (shape : TopoDS_Shape) : Prog string :=
  Shape_DumpJsonToString shape (-1)%Z.

(** ** ocjs_exception.cpp *)

(** A [Standard_Failure*].  A pointer is represented by its bit pattern, read
    as an integer of pointer width, which is what [intptr_t] holds. *)
Record Standard_Failure_ptr : Type := { address : intptr_t }.

(** [reinterpret_cast<Standard_Failure*>(v)]: the same bits under the
    pointer type; nothing is looked up and nothing is compared. *)
Definition reinterpret_cast_Standard_Failure_ptr (v : intptr_t) : Standard_Failure_ptr :=
  {| address := v |}.

Definition getStandard_FailureData (exceptionPtr : intptr_t) : Prog Standard_Failure_ptr :=
  Ret (reinterpret_cast_Standard_Failure_ptr exceptionPtr).

(** The failure objects alive in memory, by address. *)
Definition Memory : Type := intptr_t -> option Standard_Failure.

(** What the host reads through the returned pointer: [p->GetMessageString()]
    and [p->DynamicType()].  [None] stands for the undefined behaviour of
    going through a pointer that designates no live failure object. *)
Definition deref (mem : Memory) (p : Standard_Failure_ptr) : option Standard_Failure :=
  mem (address p).

Definition view_message (mem : Memory) (p : Standard_Failure_ptr) : option string :=
  option_map GetMessageString (deref mem p).

Definition view_kind (mem : Memory) (p : Standard_Failure_ptr) : option string :=
  option_map DynamicType (deref mem p).

(** ** Observations on runs *)

(** Two calls of helpers in succession, as a host makes them. *)
Definition in_succession {A B : Type} (p : Prog A) (q : Prog B) : Prog (A * B) :=
  a <- p ;;
  b <- q ;;
  Ret (a, b).

(** The sink a call creates or receives, if any. *)
Definition sink_of (c : Call) : option ostringstream :=
  match c with
  | STEPControl_Writer_WriteStream _ ss => Some ss
  | IGESControl_Writer_Write _ ss _ => Some ss
  | BRepTools_Write _ ss => Some ss
  | TopoDS_Shape_DumpJson _ ss _ => Some ss
  | _ => None
  end.

Definition creates_sink (c : Call) : bool :=
  match c with
  | std_ostringstream_new => true
  | _ => false
  end.

(** A writer object of either exchange format. *)
Inductive Writer : Type :=
| STEP_writer (w : STEPControl_Writer)
| IGES_writer (w : IGESControl_Writer).

Definition constructs_writer (c : Call) : bool :=
  match c with
  | STEPControl_Writer_new | IGESControl_Writer_new => true
  | _ => false
  end.

(** The writer object a member-function call is invoked on. *)
Definition receiver (c : Call) : option Writer :=
  match c with
  | STEPControl_Writer_Transfer w _ _ => Some (STEP_writer w)
  | STEPControl_Writer_WriteStream w _ => Some (STEP_writer w)
  | IGESControl_Writer_AddShape w _ => Some (IGES_writer w)
  | IGESControl_Writer_ComputeModel w => Some (IGES_writer w)
  | IGESControl_Writer_Write w _ _ => Some (IGES_writer w)
  | _ => None
  end.

(** The writer object a returning call leaves behind. *)
Definition writer_left (c : Call) : ret_type c -> option Writer :=
  match c return ret_type c -> option Writer with
  | STEPControl_Writer_new => fun w => Some (STEP_writer w)
  | STEPControl_Writer_Transfer _ _ _ => fun r => Some (STEP_writer (snd r))
  | STEPControl_Writer_WriteStream _ _ => fun r => Some (STEP_writer (snd (fst r)))
  | IGESControl_Writer_new => fun w => Some (IGES_writer w)
  | IGESControl_Writer_AddShape _ _ => fun r => Some (IGES_writer (snd r))
  | IGESControl_Writer_ComputeModel _ => fun w => Some (IGES_writer w)
  | IGESControl_Writer_Write _ _ _ => fun r => Some (IGES_writer (snd (fst r)))
  | _ => fun _ => None
  end.

Definition writer_after (e : Event) : option Writer :=
  match ev_outcome e with
  | Returns r => writer_left (ev_call e) r
  | Throws _ => None
  end.

(** The writer discipline of one helper call, read off its events: [cur] is
    the writer object the call holds so far.  A constructor runs only while
    the call holds no writer; a member function runs only on the writer the
    call holds, which is then the one that call leaves behind. *)
Fixpoint writer_local (cur : option Writer) (evs : list Event) : Prop :=
  match evs with
  | [] => True
  | e :: rest =>
      if constructs_writer (ev_call e) then
        cur = None /\ writer_local (writer_after e) rest
      else
        match receiver (ev_call e) with
        | Some w => cur = Some w /\ writer_local (writer_after e) rest
        | None => writer_local cur rest
        end
  end.

(** How many writer objects a run has constructed. *)
Definition writers_constructed {A : Type} (r : Result A) : nat :=
  length (filter constructs_writer (calls r)).

(** A run keeps its writer to itself: it follows the writer discipline
    starting with no writer, and it constructs one writer if it returns and
    at most one if a call throws. *)
Definition own_writer {A : Type} (r : Result A) : Prop :=
  writer_local None (events r) /\
  match outcome r with
  | Returns _ => writers_constructed r = 1
  | Throws _ => writers_constructed r <= 1
  end.

(** The exports that use a writer object. *)
Inductive WriterExport : Type :=
| Export_IGES (shape : TopoDS_Shape)
| Export_STEP (shape : TopoDS_Shape) (mode : STEPControl_StepModelType).

Definition export (e : WriterExport) : Prog string :=
  match e with
  | Export_IGES shape => IGES_WriteToString shape
  | Export_STEP shape mode => STEP_WriteToString shape mode
  end.

End Helpers.

(** ** The four exporters as one family *)

Section Exports.

Context {K : OCCT}.

(** One export call, with the arguments the caller gives. *)
Inductive Export : Type :=
| Native (shape : TopoDS_Shape)
| DebugJson (shape : TopoDS_Shape) (depth : Standard_Integer)
| Iges (shape : TopoDS_Shape)
| Step (shape : TopoDS_Shape) (mode : STEPControl_StepModelType).

Definition exporter (e : Export) : Prog string :=
  match e with
  | Native shape => BRep_WriteToString shape
  | DebugJson shape depth => Shape_DumpJsonToString shape depth
  | Iges shape => IGES_WriteToString shape
  | Step shape mode => STEP_WriteToString shape mode
  end.

Definition exported_shape (e : Export) : TopoDS_Shape :=
  match e with
  | Native shape | DebugJson shape _ | Iges shape | Step shape _ => shape
  end.

(** The shape a call receives, if any. *)
Definition shape_of (c : Call) : option TopoDS_Shape :=
  match c with
  | STEPControl_Writer_Transfer _ shape _ => Some shape
  | IGESControl_Writer_AddShape _ shape => Some shape
  | BRepTools_Write shape _ => Some shape
  | TopoDS_Shape_DumpJson shape _ _ => Some shape
  | _ => None
  end.

(** The model type a call receives, if any. *)
Definition mode_of (c : Call) : option STEPControl_StepModelType :=
  match c with
  | STEPControl_Writer_Transfer _ _ mode => Some mode
  | _ => None
  end.

(** Every shape among the calls is [shape]. *)
Definition only_shape (shape : TopoDS_Shape) (cs : list Call) : Prop :=
  Forall (fun c => match shape_of c with
                   | Some s => s = shape
                   | None => True
                   end) cs.

(** Every model type among the calls is [mode]. *)
Definition only_mode (mode : STEPControl_StepModelType) (cs : list Call) : Prop :=
  Forall (fun c => match mode_of c with
                   | Some m => m = mode
                   | None => True
                   end) cs.

(** The sink discipline of one helper call, read off its calls: [created]
    tells whether the call has created its sink.  A sink is created once;
    a call receives a sink only after the creation, receives it empty, and
    is the last call made. *)
Fixpoint sink_local (created : bool) (cs : list Call) : Prop :=
  match cs with
  | [] => True
  | c :: rest =>
      if creates_sink c then
        created = false /\ sink_local true rest
      else
        match sink_of c with
        | Some ss => created = true /\ ss = ostringstream_empty /\ rest = []
        | None => sink_local created rest
        end
  end.

Definition returned (e : Event) : bool :=
  match ev_outcome e with
  | Returns _ => true
  | Throws _ => false
  end.

(** A run that hides no failure and invents none: if it returns, every call
    it made returned; if it throws, it throws what its last call threw, and
    every call before that one returned. *)
Definition failure_from_last_call {A : Type} (r : Result A) : Prop :=
  match outcome r with
  | Returns _ => forallb returned (events r) = true
  | Throws e =>
      exists evs c,
        events r = (evs ++ [ {| ev_call := c; ev_outcome := Throws e |} ])%list /\
        forallb returned evs = true
  end.

(** The sink a returning call leaves behind. *)
Definition sink_left (c : Call) : ret_type c -> option ostringstream :=
  match c return ret_type c -> option ostringstream with
  | std_ostringstream_new => fun ss => Some ss
  | STEPControl_Writer_WriteStream _ _ => fun r => Some (snd r)
  | IGESControl_Writer_Write _ _ _ => fun r => Some (snd r)
  | BRepTools_Write _ _ => fun ss => Some ss
  | TopoDS_Shape_DumpJson _ _ _ => fun ss => Some ss
  | _ => fun _ => None
  end.

Definition sink_after (e : Event) : option ostringstream :=
  match ev_outcome e with
  | Returns r => sink_left (ev_call e) r
  | Throws _ => None
  end.

(** The exporters that compare a status: only [STEP_WriteToString] does. *)
Definition checks_status (e : Export) : bool :=
  match e with
  | Step _ _ => true
  | _ => false
  end.

Definition is_Init (c : Call) : bool :=
  match c with
  | IGESControl_Controller_Init => true
  | _ => false
  end.

(** The part of the libraries a call belongs to. *)
Inductive Subsystem : Type :=
| Sub_std
| Sub_STEPControl
| Sub_IGESControl
| Sub_BRepTools
| Sub_TopoDS.

Definition subsystem (c : Call) : Subsystem :=
  match c with
  | std_ostringstream_new => Sub_std
  | STEPControl_Writer_new
  | STEPControl_Writer_Transfer _ _ _
  | STEPControl_Writer_WriteStream _ _ => Sub_STEPControl
  | IGESControl_Controller_Init
  | IGESControl_Writer_new
  | IGESControl_Writer_AddShape _ _
  | IGESControl_Writer_ComputeModel _
  | IGESControl_Writer_Write _ _ _ => Sub_IGESControl
  | BRepTools_Write _ _ => Sub_BRepTools
  | TopoDS_Shape_DumpJson _ _ _ => Sub_TopoDS
  end.

(** The part of the kernel an exporter is written against. *)
Definition subsystem_of (e : Export) : Subsystem :=
  match e with
  | Native _ => Sub_BRepTools
  | DebugJson _ _ => Sub_TopoDS
  | Iges _ => Sub_IGESControl
  | Step _ _ => Sub_STEPControl
  end.

(** Every call is the sink's creation or belongs to [sub]. *)
Definition only_subsystem (sub : Subsystem) (cs : list Call) : Prop :=
  Forall (fun c => subsystem c = Sub_std \/ subsystem c = sub) cs.

End Exports.

(** * Two small kernels

    Executable instances of the interface, on which the helpers can be run.
    [Demo] is a kernel whose calls return unless the shape is null;
    [Faulty] is a kernel that throws once its resources are spent. *)

Module Demo.

Inductive shape : Type := Null | Vertex | Box.

Inductive status : Type := RetVoid | RetDone | RetError | RetFail | RetStop.

Definition status_eq_dec (a b : status) : {a = b} + {a <> b}.
Proof.
  decide equality.
Defined.

Record failure : Type := { message : string; kind : string }.

(** Static state: which controllers have been initialised. *)
Record statics : Type := { step_ready : bool; iges_ready : bool }.

Definition fresh : statics := {| step_ready := false; iges_ready := false |}.

Definition shape_name (s : shape) : string :=
  match s with
  | Null => "null"
  | Vertex => "vertex"
  | Box => "box"
  end.

(** A STEP writer holds the roots transferred so far. *)
Definition step_writer : Type := list shape.

Record iges_writer : Type := { roots : list shape; computed : bool }.

Definition write (ss : ostringstream) (s : string) : ostringstream :=
  {| str := str ss ++ s |}.

Definition step_new (g : statics) : Outcome failure step_writer * statics :=
  (Returns [], {| step_ready := true; iges_ready := iges_ready g |}).

(** A vertex is no solid, shell or faceted body; the null shape is nothing. *)
Definition transferable (s : shape) (mode : STEPControl_StepModelType) : bool :=
  match s, mode with
  | Null, _ => false
  | Vertex, STEPControl_AsIs => true
  | Vertex, STEPControl_GeometricCurveSet => true
  | Vertex, _ => false
  | Box, _ => true
  end.

Definition step_transfer (w : step_writer) (s : shape) (mode : STEPControl_StepModelType)
    (g : statics) : Outcome failure (status * step_writer) * statics :=
  if transferable s mode then (Returns (RetDone, (w ++ [s])%list), g)
  else (Returns (RetFail, w), g).

Definition step_write (w : step_writer) (ss : ostringstream) (g : statics)
    : Outcome failure (status * step_writer * ostringstream) * statics :=
  match w with
  | [] => (Returns (RetVoid, w, ss), g)
  | _ => (Returns (RetDone, w,
            write ss ("ISO-10303-21;" ++ String.concat "," (map shape_name w) ++ ";END-ISO-10303-21;")), g)
  end.

Definition iges_init (g : statics) : Outcome failure Standard_Boolean * statics :=
  (Returns Standard_True, {| step_ready := step_ready g; iges_ready := true |}).

Definition iges_new (g : statics) : Outcome failure iges_writer * statics :=
  (Returns {| roots := []; computed := false |},
   {| step_ready := step_ready g; iges_ready := true |}).

Definition iges_add (w : iges_writer) (s : shape) (g : statics)
    : Outcome failure (Standard_Boolean * iges_writer) * statics :=
  match s with
  | Null => (Throws {| message := "null shape"; kind := "Standard_NullObject" |}, g)
  | _ => (Returns (Standard_True, {| roots := (roots w ++ [s])%list; computed := false |}), g)
  end.

Definition iges_compute (w : iges_writer) (g : statics)
    : Outcome failure iges_writer * statics :=
  (Returns {| roots := roots w; computed := true |}, g).

Definition iges_write (w : iges_writer) (ss : ostringstream) (fnes : Standard_Boolean)
    (g : statics) : Outcome failure (Standard_Boolean * iges_writer * ostringstream) * statics :=
  if computed w then
    (Returns (Standard_True, w,
       write ss ((if fnes then "FNES:" else "IGES:") ++ String.concat "," (map shape_name (roots w)))), g)
  else (Returns (Standard_False, w, ss), g).

Definition brep_write (s : shape) (ss : ostringstream) (g : statics)
    : Outcome failure ostringstream * statics :=
  (Returns (write ss ("CASCADE Topology V1;" ++ shape_name s)), g).

(** The dump prints the shape's name when [depth] lets it descend (any depth
    but 0), and an empty object otherwise. *)
Definition dump_json (s : shape) (ss : ostringstream) (depth : Standard_Integer)
    (g : statics) : Outcome failure ostringstream * statics :=
  if (depth =? 0)%Z then (Returns (write ss "{}"), g)
  else (Returns (write ss ("{" ++ shape_name s ++ "}")), g).

Definition kernel : OCCT := {|
  Statics := statics;
  TopoDS_Shape := shape;
  Standard_Failure := failure;
  STEPControl_Writer := step_writer;
  IGESControl_Writer := iges_writer;
  GetMessageString := message;
  DynamicType := kind;
  IFSelect_ReturnStatus := status;
  IFSelect_RetDone := RetDone;
  IFSelect_ReturnStatus_eq_dec := status_eq_dec;
  kernel_STEPControl_Writer_new := step_new;
  kernel_STEPControl_Writer_Transfer := step_transfer;
  kernel_STEPControl_Writer_WriteStream := step_write;
  kernel_IGESControl_Controller_Init := iges_init;
  kernel_IGESControl_Writer_new := iges_new;
  kernel_IGESControl_Writer_AddShape := iges_add;
  kernel_IGESControl_Writer_ComputeModel := iges_compute;
  kernel_IGESControl_Writer_Write := iges_write;
  kernel_BRepTools_Write := brep_write;
  kernel_TopoDS_Shape_DumpJson := dump_json
|}.

(** A memory with one failure object alive, at address 4096. *)
Definition memory : Z -> option failure :=
  fun a => if (a =? 4096)%Z
           then Some {| message := "null shape"; kind := "Standard_NullObject" |}
           else None.

End Demo.

Module Faulty.

(** A kernel that runs out of resources: the static state is the number of
    kernel calls that still succeed; the call made when it is zero throws. *)
Definition statics : Type := nat.

Definition exhausted : Demo.failure :=
  {| Demo.message := "out of memory"; Demo.kind := "Standard_OutOfMemory" |}.

Definition spend {A : Type} (a : A) (g : statics) : Outcome Demo.failure A * statics :=
  match g with
  | O => (Throws exhausted, O)
  | S g' => (Returns a, g')
  end.

Definition kernel : OCCT := {|
  Statics := statics;
  TopoDS_Shape := Demo.shape;
  Standard_Failure := Demo.failure;
  STEPControl_Writer := unit;
  IGESControl_Writer := unit;
  GetMessageString := Demo.message;
  DynamicType := Demo.kind;
  IFSelect_ReturnStatus := Demo.status;
  IFSelect_RetDone := Demo.RetDone;
  IFSelect_ReturnStatus_eq_dec := Demo.status_eq_dec;
  kernel_STEPControl_Writer_new := spend tt;
  kernel_STEPControl_Writer_Transfer := fun w _ _ => spend (Demo.RetDone, w);
  kernel_STEPControl_Writer_WriteStream :=
    fun w ss => spend (Demo.RetDone, w, Demo.write ss "STEP");
  kernel_IGESControl_Controller_Init := spend Standard_True;
  kernel_IGESControl_Writer_new := spend tt;
  kernel_IGESControl_Writer_AddShape := fun w _ => spend (Standard_True, w);
  kernel_IGESControl_Writer_ComputeModel := fun w => spend w;
  kernel_IGESControl_Writer_Write :=
    fun w ss _ => spend (Standard_True, w, Demo.write ss "IGES");
  kernel_BRepTools_Write := fun _ ss => spend (Demo.write ss "BREP");
  kernel_TopoDS_Shape_DumpJson := fun _ ss _ => spend (Demo.write ss "JSON")
|}.

End Faulty.

(** * Properties *)

Section Properties.

Context {K : OCCT}.
Local Open Scope prog_scope.

(** ** Running programs *)

Lemma status_neq_true (a b : IFSelect_ReturnStatus) :
  status_neq a b = true <-> a <> b.
Proof.
  unfold status_neq.
  destruct (IFSelect_ReturnStatus_eq_dec a b) as [E | N]; split; intros H;
    try reflexivity; try assumption; try discriminate H; contradiction.
Qed.

Lemma status_neq_refl (a : IFSelect_ReturnStatus) : status_neq a a = false.
Proof.
  unfold status_neq.
  destruct (IFSelect_ReturnStatus_eq_dec a a) as [E | N]; [reflexivity | contradiction].
Qed.

Lemma run_call_returns {A : Type} (c : Call) (k : ret_type c -> Prog A)
    (g g' : Statics) (x : ret_type c) :
  perform c g = (Returns x, g') ->
  run (bind (call c) k) g =
  {| outcome := outcome (run (k x) g');
     final := final (run (k x) g');
     events := {| ev_call := c; ev_outcome := Returns x |} :: events (run (k x) g') |}.
Proof.
  intros H. cbn [call bind run]. rewrite H. reflexivity.
Qed.

Lemma run_call_throws {A : Type} (c : Call) (k : ret_type c -> Prog A)
    (g g' : Statics) (e : Standard_Failure) :
  perform c g = (Throws e, g') ->
  run (bind (call c) k) g =
  {| outcome := Throws e;
     final := g';
     events := [ {| ev_call := c; ev_outcome := Throws e |} ] |}.
Proof.
  intros H. cbn [call bind run]. rewrite H. reflexivity.
Qed.

(** Sequencing: the second program starts from the static state the first
    one left; nothing else passes from one to the other. *)
Lemma run_bind {A B : Type} (p : Prog A) (f : A -> Prog B) (g : Statics) :
  run (bind p f) g =
  match outcome (run p g) with
  | Returns a =>
      let r := run (f a) (final (run p g)) in
      {| outcome := outcome r;
         final := final r;
         events := (events (run p g) ++ events r)%list |}
  | Throws e =>
      {| outcome := Throws e;
         final := final (run p g);
         events := events (run p g) |}
  end.
Proof.
  revert g. induction p as [a | c k IH]; intros g.
  - cbn. destruct (run (f a) g); reflexivity.
  - cbn [bind run].
    destruct (perform c g) as [[x | e] g'].
    + rewrite IH. cbn [outcome final events].
      destruct (outcome (run (k x) g')); reflexivity.
    + reflexivity.
Qed.

(** Symbolic execution of the next call of a helper, given what the kernel
    does on it. *)
Ltac exec H :=
  erewrite run_call_returns by exact H;
  cbn beta iota delta [outcome final events fst snd].

Ltac exec_sink :=
  erewrite run_call_returns by reflexivity;
  cbn beta iota delta [outcome final events fst snd].

(** ** STEP export *)

(** C1. Whenever the transfer of [STEP_WriteToString] reports a status other
    than [IFSelect_RetDone], the helper returns the empty string by a normal
    return: it does not throw, [WriteStream] is not called, and the only
    calls made are the writer's construction and the transfer. *)
Theorem STEP_transfer_not_done_returns_empty
    (shape : TopoDS_Shape) (mode : STEPControl_StepModelType)
    (g g1 g2 : Statics) (w0 w1 : STEPControl_Writer) (status : IFSelect_ReturnStatus) :
  kernel_STEPControl_Writer_new g = (Returns w0, g1) ->
  kernel_STEPControl_Writer_Transfer w0 shape mode g1 = (Returns (status, w1), g2) ->
  status <> IFSelect_RetDone ->
  let r := run (STEP_WriteToString shape mode) g in
  outcome r = Returns "" /\
  calls r = [STEPControl_Writer_new; STEPControl_Writer_Transfer w0 shape mode] /\
  (forall w ss, ~ In (STEPControl_Writer_WriteStream w ss) (calls r)).
Proof.
  intros Hnew Htransfer Hstatus r. subst r.
  unfold STEP_WriteToString.
  exec Hnew. exec Htransfer.
  apply status_neq_true in Hstatus. rewrite Hstatus.
  cbn. repeat split.
  intros w ss [H | [H | []]]; discriminate H.
Qed.

(** C2. When the transfer reports [IFSelect_RetDone], the result of
    [STEP_WriteToString] is decided by the status [WriteStream] reports on
    the fresh sink: any status other than [IFSelect_RetDone] gives the empty
    string, and [IFSelect_RetDone] gives exactly the content the sink has
    accumulated. *)
Theorem STEP_write_stage_decides_result
    (shape : TopoDS_Shape) (mode : STEPControl_StepModelType)
    (g g1 g2 g3 : Statics) (w0 w1 w2 : STEPControl_Writer)
    (status : IFSelect_ReturnStatus) (ss : ostringstream) :
  kernel_STEPControl_Writer_new g = (Returns w0, g1) ->
  kernel_STEPControl_Writer_Transfer w0 shape mode g1 = (Returns (IFSelect_RetDone, w1), g2) ->
  kernel_STEPControl_Writer_WriteStream w1 ostringstream_empty g2 =
    (Returns (status, w2, ss), g3) ->
  let r := run (STEP_WriteToString shape mode) g in
  (status <> IFSelect_RetDone -> outcome r = Returns "") /\
  (status = IFSelect_RetDone -> outcome r = Returns (str ss)) /\
  calls r = [STEPControl_Writer_new;
             STEPControl_Writer_Transfer w0 shape mode;
             std_ostringstream_new;
             STEPControl_Writer_WriteStream w1 ostringstream_empty] /\
  final r = g3.
Proof.
  intros Hnew Htransfer Hwrite r. subst r.
  unfold STEP_WriteToString.
  exec Hnew. exec Htransfer. rewrite status_neq_refl.
  exec_sink. exec Hwrite.
  repeat split.
  - intros Hstatus. apply status_neq_true in Hstatus. rewrite Hstatus. reflexivity.
  - intros ->. rewrite status_neq_refl. reflexivity.
  - destruct (status_neq status IFSelect_RetDone); reflexivity.
  - destruct (status_neq status IFSelect_RetDone); reflexivity.
Qed.

(** C9. When the transfer of [STEP_WriteToString] does not report
    [IFSelect_RetDone], the helper returns the empty string having created
    no sink and passed no sink to any call, and the static state is the one
    the transfer left. *)
Theorem STEP_transfer_not_done_touches_no_sink
    (shape : TopoDS_Shape) (mode : STEPControl_StepModelType)
    (g g1 g2 : Statics) (w0 w1 : STEPControl_Writer) (status : IFSelect_ReturnStatus) :
  kernel_STEPControl_Writer_new g = (Returns w0, g1) ->
  kernel_STEPControl_Writer_Transfer w0 shape mode g1 = (Returns (status, w1), g2) ->
  status <> IFSelect_RetDone ->
  let r := run (STEP_WriteToString shape mode) g in
  outcome r = Returns "" /\
  (forall c, In c (calls r) -> creates_sink c = false /\ sink_of c = None) /\
  final r = g2.
Proof.
  intros Hnew Htransfer Hstatus r. subst r.
  unfold STEP_WriteToString.
  exec Hnew. exec Htransfer.
  apply status_neq_true in Hstatus. rewrite Hstatus.
  cbn. split; [reflexivity|]. split; [|reflexivity].
  intros c [<- | [<- | []]]; split; reflexivity.
Qed.

(** Case analysis on the way the next call of a helper ends. *)
Ltac case_call :=
  match goal with
  | |- context [perform ?c ?g] =>
      let x := fresh "x" in
      destruct (perform c g) as [[x | ?] ?];
      [cbn [ret_type] in x;
       repeat match goal with p : (_ * _)%type |- _ => destruct p end |]
  end;
  cbn [call bind run outcome final events].

(** ** IGES export *)

(** C4. [IGES_WriteToString] initialises the controller, then constructs a
    writer and adds the shape to it, then computes the model and writes it
    into a fresh sink, in this order and with nothing else; the flag given
    to [Write] is [Standard_False] in every run; the result is the content
    the sink has accumulated, whatever booleans the kernel calls report. *)
Theorem IGES_three_stages
    (shape : TopoDS_Shape) (g : Statics) :
  (forall w ss fnes,
      In (IGESControl_Writer_Write w ss fnes) (calls (run (IGES_WriteToString shape) g)) ->
      fnes = Standard_False) /\
  (forall (g1 g2 g3 g4 g5 : Statics) (b0 b1 b2 : Standard_Boolean)
          (w0 w1 w2 w3 : IGESControl_Writer) (ss : ostringstream),
      kernel_IGESControl_Controller_Init g = (Returns b0, g1) ->
      kernel_IGESControl_Writer_new g1 = (Returns w0, g2) ->
      kernel_IGESControl_Writer_AddShape w0 shape g2 = (Returns (b1, w1), g3) ->
      kernel_IGESControl_Writer_ComputeModel w1 g3 = (Returns w2, g4) ->
      kernel_IGESControl_Writer_Write w2 ostringstream_empty Standard_False g4 =
        (Returns (b2, w3, ss), g5) ->
      let r := run (IGES_WriteToString shape) g in
      calls r = [IGESControl_Controller_Init;
                 IGESControl_Writer_new;
                 IGESControl_Writer_AddShape w0 shape;
                 IGESControl_Writer_ComputeModel w1;
                 std_ostringstream_new;
                 IGESControl_Writer_Write w2 ostringstream_empty Standard_False] /\
      outcome r = Returns (str ss) /\
      final r = g5).
Proof.
  split.
  - intros w ss fnes. unfold IGES_WriteToString, calls.
    cbn [call bind run].
    repeat case_call; cbn [map ev_call In];
      intros H; repeat (destruct H as [H | H]; try discriminate H); try contradiction.
    all: congruence.
  - intros g1 g2 g3 g4 g5 b0 b1 b2 w0 w1 w2 w3 ss Hinit Hnew Hadd Hcompute Hwrite r.
    subst r. unfold IGES_WriteToString.
    exec Hinit. exec Hnew. exec Hadd. exec Hcompute. exec_sink. exec Hwrite.
    cbn. repeat split.
Qed.

(** ** Native export *)

(** C5. [BRep_WriteToString] takes the shape and nothing else; it opens a
    fresh, empty sink, calls [BRepTools::Write] on the shape and that sink,
    and returns exactly the content the sink has accumulated. *)
Theorem BRep_single_stage
    (shape : TopoDS_Shape) (g g1 : Statics) (ss : ostringstream) :
  kernel_BRepTools_Write shape ostringstream_empty g = (Returns ss, g1) ->
  let r := run (BRep_WriteToString shape) g in
  events r =
    [ {| ev_call := std_ostringstream_new; ev_outcome := Returns {| str := "" |} |};
      {| ev_call := BRepTools_Write shape {| str := "" |}; ev_outcome := Returns ss |} ] /\
  outcome r = Returns (str ss) /\
  final r = g1.
Proof.
  intros Hwrite r. subst r. unfold BRep_WriteToString.
  exec_sink. exec Hwrite. cbn. repeat split.
Qed.

(** ** Structural dump *)

(** C6. [Shape_DumpJsonToString] calls the shape's [DumpJson] on a fresh,
    empty sink with the caller's [depth], and returns exactly the text the
    sink has accumulated; when the caller omits [depth], the value passed to
    [DumpJson] is [-1]. *)
Theorem DumpJson_passes_depth
    (shape : TopoDS_Shape) (depth : Standard_Integer)
    (g g1 : Statics) (ss : ostringstream) :
  (kernel_TopoDS_Shape_DumpJson shape ostringstream_empty depth g = (Returns ss, g1) ->
   let r := run (Shape_DumpJsonToString shape depth) g in
   calls r = [std_ostringstream_new;
              TopoDS_Shape_DumpJson shape ostringstream_empty depth] /\
   outcome r = Returns (str ss)) /\
  (kernel_TopoDS_Shape_DumpJson shape ostringstream_empty (-1)%Z g = (Returns ss, g1) ->
   let r := run (Shape_DumpJsonToString_default shape) g in
   calls r = [std_ostringstream_new;
              TopoDS_Shape_DumpJson shape ostringstream_empty (-1)%Z] /\
   outcome r = Returns (str ss)).
Proof.
  split; intros Hdump r; subst r;
    unfold Shape_DumpJsonToString_default, Shape_DumpJsonToString;
    exec_sink; exec Hdump; cbn; split; reflexivity.
Qed.

(** C10. [Shape_DumpJsonToString] does not inspect [depth]: for every
    integer, negative ones included, the call made is [DumpJson] with that
    very value, and the helper ends the way [DumpJson] ends, returning the
    text it wrote or passing on the failure it threw. *)
Theorem DumpJson_depth_unchecked
    (shape : TopoDS_Shape) (depth : Standard_Integer) (g : Statics) :
  let dump := kernel_TopoDS_Shape_DumpJson shape ostringstream_empty depth g in
  let r := run (Shape_DumpJsonToString shape depth) g in
  calls r = [std_ostringstream_new;
             TopoDS_Shape_DumpJson shape ostringstream_empty depth] /\
  outcome r = match fst dump with
              | Returns ss => Returns (str ss)
              | Throws e => Throws e
              end /\
  final r = snd dump.
Proof.
  intros dump r. subst dump r. unfold Shape_DumpJsonToString.
  exec_sink. cbn [call bind run perform].
  destruct (kernel_TopoDS_Shape_DumpJson shape ostringstream_empty depth g) as [[ss | e] g1];
    cbn; repeat split.
Qed.

(** ** Exception bridge *)

(** C3. [getStandard_FailureData] makes no call and cannot throw: for every
    token it returns, leaving the static state as it was, the pointer whose
    bits are the token, whether or not a failure object lives there; through
    that pointer the host reads the message and the dynamic type of the
    failure object that lives at the token. *)
Theorem getStandard_FailureData_reinterprets (token : intptr_t) :
  (forall g : Statics,
      run (getStandard_FailureData token) g =
      {| outcome := Returns {| address := token |}; final := g; events := [] |}) /\
  (forall (mem : Memory) (f : Standard_Failure),
      mem token = Some f ->
      view_message mem {| address := token |} = Some (GetMessageString f) /\
      view_kind mem {| address := token |} = Some (DynamicType f)).
Proof.
  split.
  - intros g. reflexivity.
  - intros mem f Hlive. unfold view_message, view_kind, deref. cbn [address].
    rewrite Hlive. split; reflexivity.
Qed.

(** ** Successive calls *)

Lemma run_in_succession {A B : Type} (p : Prog A) (q : Prog B) (g : Statics) :
  run (in_succession p q) g =
  match outcome (run p g) with
  | Returns a =>
      let r := run q (final (run p g)) in
      {| outcome := match outcome r with
                    | Returns b => Returns (a, b)
                    | Throws e => Throws e
                    end;
         final := final r;
         events := (events (run p g) ++ events r)%list |}
  | Throws e =>
      {| outcome := Throws e;
         final := final (run p g);
         events := events (run p g) |}
  end.
Proof.
  unfold in_succession. rewrite run_bind.
  destruct (outcome (run p g)) as [a | e]; [|reflexivity].
  cbn zeta. rewrite run_bind.
  destruct (outcome (run q (final (run p g)))) as [b | e]; cbn.
  - rewrite app_nil_r. reflexivity.
  - reflexivity.
Qed.

(** ** Writer objects *)

(** C8. Every call of [IGES_WriteToString] and of [STEP_WriteToString]
    constructs one writer of its own and invokes member functions on that
    writer only; a second export starts from the static state the first one
    left, holding no writer, and does all that the same export does when run
    on its own from that static state: the static state is all that passes
    from one export to the next. *)
Theorem writer_is_local_to_each_export
    (e1 e2 : WriterExport) (g : Statics) :
  let r1 := run (export e1) g in
  let r2 := run (export e2) (final r1) in
  own_writer r1 /\
  own_writer r2 /\
  run (in_succession (export e1) (export e2)) g =
    match outcome r1 with
    | Returns s1 =>
        {| outcome := match outcome r2 with
                      | Returns s2 => Returns (s1, s2)
                      | Throws e => Throws e
                      end;
           final := final r2;
           events := (events r1 ++ events r2)%list |}
    | Throws e =>
        {| outcome := Throws e; final := final r1; events := events r1 |}
    end.
Proof.
  assert (Hlocal : forall e g0, own_writer (run (export e) g0)).
  { intros [shape | shape mode] g0; cbn [export]; unfold own_writer, writers_constructed, calls.
    - unfold IGES_WriteToString. cbn [call bind run].
      repeat case_call; cbn; repeat split; auto.
    - unfold STEP_WriteToString. cbn [call bind run].
      repeat (first [case_call
                    | match goal with
                      | |- context [status_neq ?a ?b] => destruct (status_neq a b)
                      end; cbn [call bind run outcome final events]]);
        cbn; repeat split; auto. }
  intros r1 r2. subst r1 r2.
  split; [apply Hlocal|]. split; [apply Hlocal|].
  apply run_in_succession.
Qed.

End Properties.

(** * The helpers on the small kernels *)

Section Runs.

#[local] Existing Instance Demo.kernel.

(** The writer discipline rejects a member function invoked on a writer the
    call did not construct. *)
Example writer_local_rejects_foreign_writer :
  ~ writer_local None
      (events (run (call (STEPControl_Writer_Transfer [Demo.Box] Demo.Vertex STEPControl_AsIs))
                   Demo.fresh)).
Proof.
  cbn. intros [H _]. discriminate H.
Qed.

(** A vertex exported as a manifold solid: the transfer reports
    [RetFail] and the helper returns the empty string. *)
Lemma STEP_transfer_not_done_returns_empty_witness :
  let r := run (K := Demo.kernel)
             (STEP_WriteToString Demo.Vertex STEPControl_ManifoldSolidBrep) Demo.fresh in
  outcome r = Returns "" /\
  calls r = [STEPControl_Writer_new;
             STEPControl_Writer_Transfer [] Demo.Vertex STEPControl_ManifoldSolidBrep] /\
  (forall w ss, ~ In (STEPControl_Writer_WriteStream w ss) (calls r)).
Proof.
  eapply (STEP_transfer_not_done_returns_empty (K := Demo.kernel)
           Demo.Vertex STEPControl_ManifoldSolidBrep
           Demo.fresh _ _ [] [] Demo.RetFail);
    [reflexivity | reflexivity | discriminate].
Defined.

(** A vertex exported as is: transfer and write report [RetDone] and the
    helper returns the text in the sink. *)
Lemma STEP_write_stage_decides_result_witness :
  let r := run (K := Demo.kernel)
             (STEP_WriteToString Demo.Vertex STEPControl_AsIs) Demo.fresh in
  (Demo.RetDone <> Demo.RetDone -> outcome r = Returns "") /\
  (Demo.RetDone = Demo.RetDone ->
   outcome r = Returns "ISO-10303-21;vertex;END-ISO-10303-21;") /\
  calls r = [STEPControl_Writer_new;
             STEPControl_Writer_Transfer [] Demo.Vertex STEPControl_AsIs;
             std_ostringstream_new;
             STEPControl_Writer_WriteStream [Demo.Vertex] ostringstream_empty] /\
  final r = {| Demo.step_ready := true; Demo.iges_ready := false |}.
Proof.
  eapply (STEP_write_stage_decides_result (K := Demo.kernel)
           Demo.Vertex STEPControl_AsIs
           Demo.fresh _ _ _ [] [Demo.Vertex] [Demo.Vertex] Demo.RetDone
           {| str := "ISO-10303-21;vertex;END-ISO-10303-21;" |});
    reflexivity.
Defined.

Lemma STEP_transfer_not_done_touches_no_sink_witness :
  let r := run (K := Demo.kernel)
             (STEP_WriteToString Demo.Null STEPControl_AsIs) Demo.fresh in
  outcome r = Returns "" /\
  (forall c, In c (calls r) -> creates_sink c = false /\ sink_of c = None) /\
  final r = {| Demo.step_ready := true; Demo.iges_ready := false |}.
Proof.
  eapply (STEP_transfer_not_done_touches_no_sink (K := Demo.kernel)
           Demo.Null STEPControl_AsIs
           Demo.fresh _ _ [] [] Demo.RetFail);
    [reflexivity | reflexivity | discriminate].
Defined.

Lemma IGES_three_stages_witness :
  let r := run (K := Demo.kernel) (IGES_WriteToString Demo.Box) Demo.fresh in
  calls r = [IGESControl_Controller_Init;
             IGESControl_Writer_new;
             IGESControl_Writer_AddShape
               {| Demo.roots := []; Demo.computed := false |} Demo.Box;
             IGESControl_Writer_ComputeModel
               {| Demo.roots := [Demo.Box]; Demo.computed := false |};
             std_ostringstream_new;
             IGESControl_Writer_Write
               {| Demo.roots := [Demo.Box]; Demo.computed := true |}
               ostringstream_empty Standard_False] /\
  outcome r = Returns "IGES:box" /\
  final r = {| Demo.step_ready := false; Demo.iges_ready := true |}.
Proof.
  eapply (proj2 (IGES_three_stages (K := Demo.kernel) Demo.Box Demo.fresh)
           _ _ _ _ _ Standard_True Standard_True Standard_True
           {| Demo.roots := []; Demo.computed := false |}
           {| Demo.roots := [Demo.Box]; Demo.computed := false |}
           {| Demo.roots := [Demo.Box]; Demo.computed := true |}
           {| Demo.roots := [Demo.Box]; Demo.computed := true |}
           {| str := "IGES:box" |});
    reflexivity.
Defined.

Lemma BRep_single_stage_witness :
  let r := run (K := Demo.kernel) (BRep_WriteToString Demo.Null) Demo.fresh in
  events r =
    [ {| ev_call := std_ostringstream_new; ev_outcome := Returns {| str := "" |} |};
      {| ev_call := BRepTools_Write Demo.Null {| str := "" |};
         ev_outcome := Returns {| str := "CASCADE Topology V1;null" |} |} ] /\
  outcome r = Returns "CASCADE Topology V1;null" /\
  final r = Demo.fresh.
Proof.
  apply (BRep_single_stage (K := Demo.kernel) Demo.Null Demo.fresh Demo.fresh
           {| str := "CASCADE Topology V1;null" |});
    reflexivity.
Defined.

Lemma DumpJson_passes_depth_witness :
  (let r := run (K := Demo.kernel) (Shape_DumpJsonToString Demo.Box 0%Z) Demo.fresh in
   calls r = [std_ostringstream_new;
              TopoDS_Shape_DumpJson Demo.Box ostringstream_empty 0%Z] /\
   outcome r = Returns "{}") /\
  (let r := run (K := Demo.kernel) (Shape_DumpJsonToString_default Demo.Box) Demo.fresh in
   calls r = [std_ostringstream_new;
              TopoDS_Shape_DumpJson Demo.Box ostringstream_empty (-1)%Z] /\
   outcome r = Returns "{box}").
Proof.
  split.
  - apply (proj1 (DumpJson_passes_depth (K := Demo.kernel) Demo.Box 0%Z
                    Demo.fresh Demo.fresh {| str := "{}" |}));
      reflexivity.
  - apply (proj2 (DumpJson_passes_depth (K := Demo.kernel) Demo.Box 0%Z
                    Demo.fresh Demo.fresh {| str := "{box}" |}));
      reflexivity.
Defined.

Lemma getStandard_FailureData_reinterprets_witness :
  view_message (K := Demo.kernel) Demo.memory {| address := 4096%Z |} = Some "null shape" /\
  view_kind (K := Demo.kernel) Demo.memory {| address := 4096%Z |} = Some "Standard_NullObject".
Proof.
  apply (proj2 (getStandard_FailureData_reinterprets (K := Demo.kernel) 4096%Z)
           Demo.memory
           {| Demo.message := "null shape"; Demo.kind := "Standard_NullObject" |});
    reflexivity.
Defined.

End Runs.

(** * Further properties of the helpers *)

Section Further.

Context {K : OCCT}.
Local Open Scope prog_scope.

Lemma status_neq_false (a b : IFSelect_ReturnStatus) :
  status_neq a b = false -> a = b.
Proof.
  unfold status_neq.
  destruct (IFSelect_ReturnStatus_eq_dec a b) as [E | N]; [auto | discriminate].
Qed.

(** Case analysis on the way the next kernel call of a helper ends; the
    creation of the sink is run as it is. *)
Ltac next_call :=
  cbn [call bind run perform outcome final events];
  match goal with
  | |- context [match ?o with pair _ _ => _ end] =>
      let x := fresh "x" in
      destruct o as [[x | ?] ?];
      [repeat match goal with p : (_ * _)%type |- _ => destruct p end |]
  end;
  cbn [call bind run perform outcome final events].

Ltac next_status :=
  match goal with
  | |- context [status_neq ?a ?b] =>
      let E := fresh "E" in
      destruct (status_neq a b) eqn:E;
      [| apply status_neq_false in E; subst ]
  end;
  cbn [call bind run perform outcome final events].

Ltac all_paths := repeat first [next_call | next_status].

(** ** STEP export: reading the result *)

(** X1. A non-empty string returned by [STEP_WriteToString] tells that the
    writer was constructed, that the transfer and the write into a fresh
    sink both reported [IFSelect_RetDone], that nothing else was called,
    and that the string is what the write left in the sink. *)
Theorem STEP_nonempty_result_means_done
    (shape : TopoDS_Shape) (mode : STEPControl_StepModelType)
    (g : Statics) (s : string) :
  outcome (run (STEP_WriteToString shape mode) g) = Returns s ->
  s <> "" ->
  exists (w0 w1 w2 : STEPControl_Writer) (ss : ostringstream),
    events (run (STEP_WriteToString shape mode) g) =
      [ {| ev_call := STEPControl_Writer_new; ev_outcome := Returns w0 |};
        {| ev_call := STEPControl_Writer_Transfer w0 shape mode;
           ev_outcome := Returns (IFSelect_RetDone, w1) |};
        {| ev_call := std_ostringstream_new; ev_outcome := Returns ostringstream_empty |};
        {| ev_call := STEPControl_Writer_WriteStream w1 ostringstream_empty;
           ev_outcome := Returns (IFSelect_RetDone, w2, ss) |} ] /\
    s = str ss.
Proof.
  unfold STEP_WriteToString.
  all_paths; intros Hs Hne; try discriminate Hs;
    injection Hs as <-; try contradiction.
  eexists _, _, _, _. split; reflexivity.
Qed.

(** X12. The empty string returned by [STEP_WriteToString] has three
    causes and the caller cannot tell them apart: the transfer reported a
    status other than [IFSelect_RetDone] and nothing more was called; or the
    write was called and reported a status other than [IFSelect_RetDone],
    whatever it had put in the sink; or the write reported [IFSelect_RetDone]
    and left the sink empty. *)
Theorem STEP_empty_result_causes
    (shape : TopoDS_Shape) (mode : STEPControl_StepModelType) (g : Statics) :
  outcome (run (STEP_WriteToString shape mode) g) = Returns "" ->
  (exists (w0 w1 : STEPControl_Writer) (status : IFSelect_ReturnStatus),
      status <> IFSelect_RetDone /\
      events (run (STEP_WriteToString shape mode) g) =
        [ {| ev_call := STEPControl_Writer_new; ev_outcome := Returns w0 |};
          {| ev_call := STEPControl_Writer_Transfer w0 shape mode;
             ev_outcome := Returns (status, w1) |} ]) \/
  (exists (w0 w1 w2 : STEPControl_Writer) (status : IFSelect_ReturnStatus)
          (ss : ostringstream),
      (status <> IFSelect_RetDone \/ str ss = "") /\
      events (run (STEP_WriteToString shape mode) g) =
        [ {| ev_call := STEPControl_Writer_new; ev_outcome := Returns w0 |};
          {| ev_call := STEPControl_Writer_Transfer w0 shape mode;
             ev_outcome := Returns (IFSelect_RetDone, w1) |};
          {| ev_call := std_ostringstream_new;
             ev_outcome := Returns ostringstream_empty |};
          {| ev_call := STEPControl_Writer_WriteStream w1 ostringstream_empty;
             ev_outcome := Returns (status, w2, ss) |} ]).
Proof.
  unfold STEP_WriteToString.
  all_paths; intros Hs; try discriminate Hs.
  - left. eexists _, _, _. split; [| reflexivity].
    apply status_neq_true. assumption.
  - right. eexists _, _, _, _, _. split; [| reflexivity].
    left. apply status_neq_true. assumption.
  - right. eexists _, _, _, _, _. split; [| reflexivity].
    right. injection Hs as Hs. exact Hs.
Qed.

(** ** STEP export: failures *)

(** X2. A failure thrown by the writer's constructor, by the transfer or by
    the write leaves [STEP_WriteToString] as that same failure, not as an
    empty string; no call is made after the one that threw, and the static
    state is the one that call left. *)
Theorem STEP_failure_propagates
    (shape : TopoDS_Shape) (mode : STEPControl_StepModelType) (g : Statics) :
  (forall (e : Standard_Failure) (g1 : Statics),
      kernel_STEPControl_Writer_new g = (Throws e, g1) ->
      run (STEP_WriteToString shape mode) g =
      {| outcome := Throws e;
         final := g1;
         events := [ {| ev_call := STEPControl_Writer_new; ev_outcome := Throws e |} ] |}) /\
  (forall (w0 : STEPControl_Writer) (e : Standard_Failure) (g1 g2 : Statics),
      kernel_STEPControl_Writer_new g = (Returns w0, g1) ->
      kernel_STEPControl_Writer_Transfer w0 shape mode g1 = (Throws e, g2) ->
      run (STEP_WriteToString shape mode) g =
      {| outcome := Throws e;
         final := g2;
         events := [ {| ev_call := STEPControl_Writer_new; ev_outcome := Returns w0 |};
                     {| ev_call := STEPControl_Writer_Transfer w0 shape mode;
                        ev_outcome := Throws e |} ] |}) /\
  (forall (w0 w1 : STEPControl_Writer) (e : Standard_Failure) (g1 g2 g3 : Statics),
      kernel_STEPControl_Writer_new g = (Returns w0, g1) ->
      kernel_STEPControl_Writer_Transfer w0 shape mode g1 =
        (Returns (IFSelect_RetDone, w1), g2) ->
      kernel_STEPControl_Writer_WriteStream w1 ostringstream_empty g2 = (Throws e, g3) ->
      run (STEP_WriteToString shape mode) g =
      {| outcome := Throws e;
         final := g3;
         events := [ {| ev_call := STEPControl_Writer_new; ev_outcome := Returns w0 |};
                     {| ev_call := STEPControl_Writer_Transfer w0 shape mode;
                        ev_outcome := Returns (IFSelect_RetDone, w1) |};
                     {| ev_call := std_ostringstream_new;
                        ev_outcome := Returns ostringstream_empty |};
                     {| ev_call := STEPControl_Writer_WriteStream w1 ostringstream_empty;
                        ev_outcome := Throws e |} ] |}).
Proof.
  unfold STEP_WriteToString. repeat split.
  - intros e g1 Hnew.
    cbn [call bind run perform]. rewrite Hnew. reflexivity.
  - intros w0 e g1 g2 Hnew Htransfer.
    cbn [call bind run perform]. rewrite Hnew.
    cbn [call bind run perform]. rewrite Htransfer. reflexivity.
  - intros w0 w1 e g1 g2 g3 Hnew Htransfer Hwrite.
    cbn [call bind run perform]. rewrite Hnew.
    cbn [call bind run perform]. rewrite Htransfer.
    rewrite status_neq_refl.
    cbn [call bind run perform]. rewrite Hwrite. reflexivity.
Qed.

(** ** All exporters *)

Lemma run_failure_from_last_call {A : Type} (p : Prog A) (g : Statics) :
  failure_from_last_call (run p g).
Proof.
  revert g. induction p as [a | c k IH]; intros g.
  - reflexivity.
  - unfold failure_from_last_call. cbn [run].
    destruct (perform c g) as [[x | e] g1]; cbn [outcome events].
    + specialize (IH x g1). unfold failure_from_last_call in IH.
      destruct (outcome (run (k x) g1)) as [a | e].
      * cbn [forallb returned ev_outcome andb]. exact IH.
      * destruct IH as (evs & c' & Hev & Hret).
        exists ({| ev_call := c; ev_outcome := Returns x |} :: evs), c'.
        rewrite Hev. split; [reflexivity | exact Hret].
    + exists [], c. split; reflexivity.
Qed.

(** X3. [IGES_WriteToString] has one way to report a failure, the kernel's
    own: it returns exactly when the controller's initialisation, the
    writer's construction, [AddShape], [ComputeModel] and [Write] have all
    returned, whatever booleans they reported, and the string is then what
    [Write] left in the sink; otherwise it throws the failure of the last
    call it made, at most five calls having returned before. *)
Theorem IGES_returns_when_every_call_returned (shape : TopoDS_Shape) (g : Statics) :
  let r := run (IGES_WriteToString shape) g in
  match outcome r with
  | Returns s =>
      exists (b0 b1 b2 : Standard_Boolean) (w0 w1 w2 w3 : IGESControl_Writer)
             (ss : ostringstream),
        events r =
          [ {| ev_call := IGESControl_Controller_Init; ev_outcome := Returns b0 |};
            {| ev_call := IGESControl_Writer_new; ev_outcome := Returns w0 |};
            {| ev_call := IGESControl_Writer_AddShape w0 shape;
               ev_outcome := Returns (b1, w1) |};
            {| ev_call := IGESControl_Writer_ComputeModel w1; ev_outcome := Returns w2 |};
            {| ev_call := std_ostringstream_new;
               ev_outcome := Returns ostringstream_empty |};
            {| ev_call := IGESControl_Writer_Write w2 ostringstream_empty Standard_False;
               ev_outcome := Returns (b2, w3, ss) |} ] /\
        s = str ss
  | Throws e =>
      exists (evs : list Event) (c : Call),
        events r = (evs ++ [ {| ev_call := c; ev_outcome := Throws e |} ])%list /\
        forallb returned evs = true /\
        length evs <= 5
  end.
Proof.
  intros r. subst r.
  pose proof (run_failure_from_last_call (IGES_WriteToString shape) g) as Hlast.
  unfold failure_from_last_call in Hlast. revert Hlast.
  unfold IGES_WriteToString.
  all_paths; intros Hlast.
  1: { eexists _, _, _, _, _, _, _, _. split; reflexivity. }
  all: destruct Hlast as (evs & c & Hev & Hret);
    exists evs, c; (split; [exact Hev |]); (split; [exact Hret |]);
    apply (f_equal (@length _)) in Hev; rewrite length_app in Hev; cbn in Hev; lia.
Qed.

(** X4. [BRep_WriteToString] ends the way [BRepTools::Write] ends on the
    empty sink: it returns the text the writer left, empty or not, or passes
    on the failure the writer threw, and the static state is the writer's. *)
Theorem BRep_ends_as_writer_ends (shape : TopoDS_Shape) (g : Statics) :
  let w := kernel_BRepTools_Write shape ostringstream_empty g in
  let r := run (BRep_WriteToString shape) g in
  calls r = [std_ostringstream_new; BRepTools_Write shape ostringstream_empty] /\
  outcome r = match fst w with
              | Returns ss => Returns (str ss)
              | Throws e => Throws e
              end /\
  final r = snd w.
Proof.
  intros w r. subst w r. unfold BRep_WriteToString.
  cbn [call bind run perform].
  destruct (kernel_BRepTools_Write shape ostringstream_empty g) as [[ss | e] g1];
    cbn; repeat split.
Qed.

(** X5. In every run of every exporter, returning or not, the sink is
    created at most once; a kernel call receives a sink only after that
    creation, receives it empty, and is the last call of the run. *)
Theorem exporter_sink_is_fresh_and_written_last (e : Export) (g : Statics) :
  sink_local false (calls (run (exporter e) g)).
Proof.
  destruct e as [shape | shape depth | shape | shape mode]; cbn [exporter];
    unfold BRep_WriteToString, Shape_DumpJsonToString, IGES_WriteToString,
      STEP_WriteToString, calls;
    all_paths; cbn; repeat split.
Qed.

(** X6. No exporter gives the kernel a shape other than the one it was
    called with, in any run. *)
Theorem exporter_passes_only_its_shape (e : Export) (g : Statics) :
  only_shape (exported_shape e) (calls (run (exporter e) g)).
Proof.
  destruct e as [shape | shape depth | shape | shape mode];
    cbn [exporter exported_shape];
    unfold BRep_WriteToString, Shape_DumpJsonToString, IGES_WriteToString,
      STEP_WriteToString, calls, only_shape;
    all_paths; cbn [map ev_call];
    repeat (apply Forall_cons; [cbn; auto |]); apply Forall_nil.
Qed.

(** X7. [STEP_WriteToString] gives the kernel no model type other than the
    caller's, in any run; when the caller omits it, none other than
    [STEPControl_AsIs]. *)
Theorem STEP_passes_only_its_mode
    (shape : TopoDS_Shape) (mode : STEPControl_StepModelType) (g : Statics) :
  only_mode mode (calls (run (STEP_WriteToString shape mode) g)) /\
  only_mode STEPControl_AsIs (calls (run (STEP_WriteToString_default shape) g)).
Proof.
  split;
    unfold STEP_WriteToString_default, STEP_WriteToString, calls, only_mode;
    all_paths; cbn [map ev_call];
    repeat (apply Forall_cons; [cbn; auto |]); apply Forall_nil.
Qed.

(** X10. Every exporter drives its own part of the kernel only: besides
    creating its sink, [BRep_WriteToString] calls [BRepTools] alone,
    [Shape_DumpJsonToString] the shape's dump alone, [IGES_WriteToString]
    the IGES controller and writer alone, [STEP_WriteToString] the STEP
    writer alone. *)
Theorem exporter_stays_in_its_subsystem (e : Export) (g : Statics) :
  only_subsystem (subsystem_of e) (calls (run (exporter e) g)).
Proof.
  destruct e as [shape | shape depth | shape | shape mode];
    cbn [exporter subsystem_of];
    unfold BRep_WriteToString, Shape_DumpJsonToString, IGES_WriteToString,
      STEP_WriteToString, calls, only_subsystem;
    all_paths; cbn [map ev_call];
    repeat (apply Forall_cons; [cbn; auto |]); apply Forall_nil.
Qed.

(** X11. The three exporters that compare no status return whatever the
    kernel's write left in the sink, the empty string included: a returned
    string is the content of the sink after the last call of the run, which
    received that sink empty. *)
Theorem unchecked_exporter_returns_the_sink
    (e : Export) (g : Statics) (s : string) :
  checks_status e = false ->
  outcome (run (exporter e) g) = Returns s ->
  exists (evs : list Event) (ev : Event),
    events (run (exporter e) g) = (evs ++ [ev])%list /\
    sink_of (ev_call ev) = Some ostringstream_empty /\
    option_map str (sink_after ev) = Some s.
Proof.
  destruct e as [shape | shape depth | shape | shape mode];
    cbn [checks_status exporter]; intros Hc; try discriminate Hc; clear Hc;
    unfold BRep_WriteToString, Shape_DumpJsonToString, IGES_WriteToString;
    all_paths; intros Hs; try discriminate Hs; injection Hs as <-.
  - eexists [_], _. repeat split.
  - eexists [_], _. repeat split.
  - eexists [_; _; _; _; _], _. repeat split.
Qed.

(** ** IGES export: the controller *)

Lemma IGES_one_Init (shape : TopoDS_Shape) (g : Statics) :
  length (filter is_Init (calls (run (IGES_WriteToString shape) g))) = 1.
Proof.
  unfold IGES_WriteToString, calls. all_paths; reflexivity.
Qed.

(** X8. [IGES_WriteToString] calls [IGESControl_Controller::Init] first and
    once in every run, whatever the static state: the helper keeps no record
    of an earlier initialisation, so two exports in succession call it once
    each. *)
Theorem IGES_initialises_on_every_export
    (shape1 shape2 : TopoDS_Shape) (g : Statics) :
  let r1 := run (IGES_WriteToString shape1) g in
  let r := run (in_succession (IGES_WriteToString shape1) (IGES_WriteToString shape2)) g in
  hd_error (calls r1) = Some IGESControl_Controller_Init /\
  length (filter is_Init (calls r1)) = 1 /\
  length (filter is_Init (calls r)) = match outcome r1 with
                                      | Returns _ => 2
                                      | Throws _ => 1
                                      end.
Proof.
  intros r1 r. subst r1 r. split; [|split].
  - unfold IGES_WriteToString, calls. all_paths; reflexivity.
  - apply IGES_one_Init.
  - rewrite run_in_succession.
    pose proof (IGES_one_Init shape1 g) as H1.
    destruct (outcome (run (IGES_WriteToString shape1) g)) as [s1 | e].
    + unfold calls in *. cbn [events].
      rewrite map_app, filter_app, length_app, H1.
      pose proof (IGES_one_Init shape2 (final (run (IGES_WriteToString shape1) g))) as H2.
      unfold calls in H2. rewrite H2. reflexivity.
    + exact H1.
Qed.

End Further.

(** * The further properties on the small kernels *)

Section FurtherRuns.

#[local] Existing Instance Demo.kernel.

(** The sink discipline rejects a write into a sink that is not fresh. *)
Example sink_local_rejects_used_sink :
  ~ sink_local false
      [std_ostringstream_new; BRepTools_Write Demo.Box {| str := "left over" |}].
Proof.
  cbn. intros (_ & _ & H & _). discriminate H.
Qed.

Lemma STEP_nonempty_result_means_done_witness :
  exists (w0 w1 w2 : Demo.step_writer) (ss : ostringstream),
    events (run (STEP_WriteToString Demo.Vertex STEPControl_AsIs) Demo.fresh) =
      [ {| ev_call := STEPControl_Writer_new; ev_outcome := Returns w0 |};
        {| ev_call := STEPControl_Writer_Transfer w0 Demo.Vertex STEPControl_AsIs;
           ev_outcome := Returns (Demo.RetDone, w1) |};
        {| ev_call := std_ostringstream_new; ev_outcome := Returns ostringstream_empty |};
        {| ev_call := STEPControl_Writer_WriteStream w1 ostringstream_empty;
           ev_outcome := Returns (Demo.RetDone, w2, ss) |} ] /\
    "ISO-10303-21;vertex;END-ISO-10303-21;" = str ss.
Proof.
  apply (STEP_nonempty_result_means_done (K := Demo.kernel)
           Demo.Vertex STEPControl_AsIs Demo.fresh
           "ISO-10303-21;vertex;END-ISO-10303-21;");
    [reflexivity | discriminate].
Defined.

Lemma unchecked_exporter_returns_the_sink_witness :
  exists (evs : list Event) (ev : Event),
    events (run (exporter (Native Demo.Null)) Demo.fresh) = (evs ++ [ev])%list /\
    sink_of (ev_call ev) = Some ostringstream_empty /\
    option_map str (sink_after ev) = Some "CASCADE Topology V1;null".
Proof.
  apply (unchecked_exporter_returns_the_sink (K := Demo.kernel)
           (Native (K := Demo.kernel) Demo.Null) Demo.fresh "CASCADE Topology V1;null");
    reflexivity.
Defined.

(** The null shape: the transfer reports [RetFail]. *)
Lemma STEP_empty_result_causes_witness :
  (exists (w0 w1 : Demo.step_writer) (status : Demo.status),
      status <> Demo.RetDone /\
      events (run (STEP_WriteToString Demo.Null STEPControl_AsIs) Demo.fresh) =
        [ {| ev_call := STEPControl_Writer_new; ev_outcome := Returns w0 |};
          {| ev_call := STEPControl_Writer_Transfer w0 Demo.Null STEPControl_AsIs;
             ev_outcome := Returns (status, w1) |} ]) \/
  (exists (w0 w1 w2 : Demo.step_writer) (status : Demo.status) (ss : ostringstream),
      (status <> Demo.RetDone \/ str ss = "") /\
      events (run (STEP_WriteToString Demo.Null STEPControl_AsIs) Demo.fresh) =
        [ {| ev_call := STEPControl_Writer_new; ev_outcome := Returns w0 |};
          {| ev_call := STEPControl_Writer_Transfer w0 Demo.Null STEPControl_AsIs;
             ev_outcome := Returns (Demo.RetDone, w1) |};
          {| ev_call := std_ostringstream_new;
             ev_outcome := Returns ostringstream_empty |};
          {| ev_call := STEPControl_Writer_WriteStream w1 ostringstream_empty;
             ev_outcome := Returns (status, w2, ss) |} ]).
Proof.
  apply (STEP_empty_result_causes (K := Demo.kernel)
           Demo.Null STEPControl_AsIs Demo.fresh).
  reflexivity.
Defined.

End FurtherRuns.

Section FaultyRuns.

#[local] Existing Instance Faulty.kernel.

(** The kernel gives out after no call, after one and after two: the
    constructor, the transfer and the write throw in turn. *)
Lemma STEP_failure_propagates_witness :
  run (STEP_WriteToString Demo.Box STEPControl_AsIs) 0%nat =
    {| outcome := Throws Faulty.exhausted;
       final := 0%nat;
       events := [ {| ev_call := STEPControl_Writer_new;
                      ev_outcome := Throws Faulty.exhausted |} ] |} /\
  run (STEP_WriteToString Demo.Box STEPControl_AsIs) 1%nat =
    {| outcome := Throws Faulty.exhausted;
       final := 0%nat;
       events := [ {| ev_call := STEPControl_Writer_new; ev_outcome := Returns tt |};
                   {| ev_call := STEPControl_Writer_Transfer tt Demo.Box STEPControl_AsIs;
                      ev_outcome := Throws Faulty.exhausted |} ] |} /\
  run (STEP_WriteToString Demo.Box STEPControl_AsIs) 2%nat =
    {| outcome := Throws Faulty.exhausted;
       final := 0%nat;
       events := [ {| ev_call := STEPControl_Writer_new; ev_outcome := Returns tt |};
                   {| ev_call := STEPControl_Writer_Transfer tt Demo.Box STEPControl_AsIs;
                      ev_outcome := Returns (Demo.RetDone, tt) |};
                   {| ev_call := std_ostringstream_new;
                      ev_outcome := Returns ostringstream_empty |};
                   {| ev_call := STEPControl_Writer_WriteStream tt ostringstream_empty;
                      ev_outcome := Throws Faulty.exhausted |} ] |}.
Proof.
  split; [|split].
  - apply (proj1 (STEP_failure_propagates (K := Faulty.kernel)
                    Demo.Box STEPControl_AsIs 0%nat)).
    reflexivity.
  - apply (proj1 (proj2 (STEP_failure_propagates (K := Faulty.kernel)
                           Demo.Box STEPControl_AsIs 1%nat)) tt Faulty.exhausted 0%nat 0%nat);
      reflexivity.
  - apply (proj2 (proj2 (STEP_failure_propagates (K := Faulty.kernel)
                           Demo.Box STEPControl_AsIs 2%nat))
             tt tt Faulty.exhausted 1%nat 0%nat 0%nat);
      reflexivity.
Defined.

End FaultyRuns.
